(** * Thread counts and launch delays of a hack/weaken/grow/weaken batch

    A shallow embedding of [src/lib/thread-utils.ts] and of [createBatch]
    from [src/scripts/deploy-scripts.ts], with the properties the
    specification states about them.

    Numbers.  The program computes on JavaScript numbers.  They are modelled
    as exact real numbers extended with the three special values a division
    or a logarithm can produce ([Infinity], [-Infinity], [NaN]); the
    operations follow IEEE 754 on the special values.  The sign of zero is
    left out of the model (the only zero is [+0]), and so is the rounding of
    real-valued results.  Where the program takes the integer part of a
    quotient of two measured values ([getHackThreads], [getMinSecThreads])
    the rounding of the division decides the integer, and the quotient is
    rounded: see [Rounding]. *)

From Stdlib Require Import Reals Lra Lia ZArith List String.
Import ListNotations.

Open Scope R_scope.

(* ================================================================== *)
(** ** JavaScript numbers                                               *)
(* ================================================================== *)

Inductive number : Type :=
| Num (r : R)
| PosInfinity
| NegInfinity
| NaN.

Declare Scope js_scope.
Delimit Scope js_scope with js.
Bind Scope js_scope with number.

(** Unary minus. *)
Definition jneg (x : number) : number :=
  match x with
  | Num a => Num (- a)
  | PosInfinity => NegInfinity
  | NegInfinity => PosInfinity
  | NaN => NaN
  end.

(** [x + y]; [Infinity + -Infinity] is [NaN]. *)
Definition jadd (x y : number) : number :=
  match x, y with
  | NaN, _ | _, NaN => NaN
  | Num a, Num b => Num (a + b)
  | PosInfinity, NegInfinity | NegInfinity, PosInfinity => NaN
  | PosInfinity, _ | _, PosInfinity => PosInfinity
  | NegInfinity, _ | _, NegInfinity => NegInfinity
  end.

(** [x - y]. *)
Definition jsub (x y : number) : number := jadd x (jneg y).

(** The infinity of the sign of [a], [NaN] when [a] is zero: the value of
    [a * Infinity] and of [a / 0]. *)
Definition infinityOfSign (a : R) : number :=
  match total_order_T a 0 with
  | inleft (left _) => NegInfinity
  | inleft (right _) => NaN
  | inright _ => PosInfinity
  end.

(** [x * y]; [0 * Infinity] is [NaN]. *)
Definition jmul (x y : number) : number :=
  match x, y with
  | NaN, _ | _, NaN => NaN
  | Num a, Num b => Num (a * b)
  | Num a, PosInfinity | PosInfinity, Num a => infinityOfSign a
  | Num a, NegInfinity | NegInfinity, Num a => jneg (infinityOfSign a)
  | PosInfinity, PosInfinity | NegInfinity, NegInfinity => PosInfinity
  | PosInfinity, NegInfinity | NegInfinity, PosInfinity => NegInfinity
  end.

(** [x / y]; a finite non-zero number over zero is an infinity, [0 / 0] and
    [Infinity / Infinity] are [NaN]. *)
Definition jdiv (x y : number) : number :=
  match x, y with
  | NaN, _ | _, NaN => NaN
  | Num a, Num b =>
      if Req_dec_T b 0 then infinityOfSign a else Num (a / b)
  | Num _, PosInfinity | Num _, NegInfinity => Num 0
  | PosInfinity, Num b =>
      if Rlt_dec b 0 then NegInfinity else PosInfinity
  | NegInfinity, Num b =>
      if Rlt_dec b 0 then PosInfinity else NegInfinity
  | _, _ => NaN
  end.

Notation "x + y" := (jadd x y) : js_scope.
Notation "x - y" := (jsub x y) : js_scope.
Notation "x * y" := (jmul x y) : js_scope.
Notation "x / y" := (jdiv x y) : js_scope.

(** [Math.floor] and [Math.ceil]: the special values are returned as they
    are. *)
Definition Math_floor (x : number) : number :=
  match x with
  | Num a => Num (IZR (Zfloor a))
  | _ => x
  end.

Definition Math_ceil (x : number) : number :=
  match x with
  | Num a => Num (IZR (Zceil a))
  | _ => x
  end.

(** [Math.min] and [Math.max]: [NaN] as soon as one argument is. *)
Definition Math_min (x y : number) : number :=
  match x, y with
  | NaN, _ | _, NaN => NaN
  | Num a, Num b => Num (Rmin a b)
  | NegInfinity, _ | _, NegInfinity => NegInfinity
  | PosInfinity, z | z, PosInfinity => z
  end.

Definition Math_max (x y : number) : number :=
  match x, y with
  | NaN, _ | _, NaN => NaN
  | Num a, Num b => Num (Rmax a b)
  | PosInfinity, _ | _, PosInfinity => PosInfinity
  | NegInfinity, z | z, NegInfinity => z
  end.

(** [Math.log], the natural logarithm: [-Infinity] at zero, [NaN] below. *)
Definition Math_log (x : number) : number :=
  match x with
  | Num a =>
      match total_order_T a 0 with
      | inleft (left _) => NaN
      | inleft (right _) => NegInfinity
      | inright _ => Num (ln a)
      end
  | PosInfinity => PosInfinity
  | NegInfinity | NaN => NaN
  end.

(** The rounding of a double division: the real quotient is replaced by a
    double next to it. Rounding to nearest keeps zero, the order and the
    sign (the exponent range is taken unbounded: no overflow, no
    underflow); nothing else is assumed of it. *)
Record Rounding : Type := mkRounding {
  fl : R -> R;
  fl_zero : fl 0 = 0;
  fl_monotone : forall x y : R, x <= y -> fl x <= fl y;
  fl_positive : forall x : R, 0 < x -> 0 < fl x;
  fl_negative : forall x : R, x < 0 -> fl x < 0
}.

(** A finite result rounded; the special values are not. *)
Definition jround (rnd : Rounding) (x : number) : number :=
  match x with
  | Num a => Num (fl rnd a)
  | _ => x
  end.

(** Exact arithmetic, the rounding that changes nothing. *)
Definition exactRounding : Rounding :=
  mkRounding (fun x => x) eq_refl (fun x y H => H) (fun x H => H)
             (fun x H => H).

(** [a[i]] on an array of numbers. *)
Definition index (a : list number) (i : nat) : option number := nth_error a i.

(* ================================================================== *)
(** ** The environment: the Netscript interface and the game objects    *)
(* ================================================================== *)

(** The declarations of [NS], [Server], [Target], [Metrics] and
    [Controller] live outside the two source files; the records below hold
    the members the functions read, under the names they are read by. *)

Record Player : Type := mkPlayer {
  skills_hacking : number;        (* getPlayer().skills.hacking *)
  mults_hacking_money : number;   (* getPlayer().mults.hacking_money *)
  mults_hacking_grow : number     (* getPlayer().mults.hacking_grow *)
}.

Record Server : Type := mkServer {
  hostname : string;
  server_moneyAvailable : number;
  server_hackDifficulty : number
}.

Record Target : Type := mkTarget {
  server : Server;
  hackDifficulty : number;
  moneyMax : number;
  moneyAvailable : number
}.

Record Metrics : Type := mkMetrics {
  target : Target;
  greed : number;
  taskDelay : number
}.

Record Controller : Type := mkController {
  metrics : Metrics;
  controller_target : Target      (* controller.target *)
}.

(** [ns]: the calls are reads of the game state, which does not change
    while one of the functions below runs. [fileExists] takes the optional
    host as an [option]. *)
Record NS : Type := mkNS {
  fileExists : string -> option string -> bool;
  getPlayer : Player;
  formulas_hacking_hackPercent : Server -> Player -> number;
  formulas_hacking_growThreads : Server -> Player -> number -> number;
  formulas_mockServer : Server;
  getServerRequiredHackingLevel : string -> number;
  getServerSecurityLevel : string -> number;
  getServerGrowth : string -> number;
  getHackTime : string -> number;
  getGrowTime : string -> number;
  getWeakenTime : string -> number
}.

(** The kind of a task and, for the two [Fortify] tasks, which operation
    they offset. *)
Inductive Kind : Type := Extract | Fortify | Replenish.
Inductive Phase : Type := Primary | Secondary.

Record Task : Type := mkTask {
  kind : Kind;
  phase : Phase;
  threads : number;
  delay : number
}.

Record Batch : Type := mkBatch {
  batch_target : Server;
  hosts : list Server;
  tasks : list Task
}.

(* ================================================================== *)
(** ** The program                                                      *)
(* ================================================================== *)

Section Program.

Local Open Scope js_scope.

(** The rounding of the divisions whose quotient is floored or ceiled. *)
Variable rnd : Rounding.

(** [clamp] is imported from [/lib/misc] and [getUsableHosts] from
    [/lib/searchServers]; neither is among the source files, so the
    program is parametrised by them. *)
Variable clamp : number -> number -> number -> number.
Variable getUsableHosts : NS -> list Server.

(** thread-utils.ts, [getHackEffect]. *)
Definition getHackEffect (ns : NS) (target : Target) : number :=
  let hostname := hostname (server target) in
  let hackDifficulty := hackDifficulty target in
  let difficultyMultiplier := (Num 100 - hackDifficulty) / Num 100 in
  let hackStealMultiplier := mults_hacking_money (getPlayer ns) in
  let playerSkill := skills_hacking (getPlayer ns) in
  let requiredSkill := getServerRequiredHackingLevel ns hostname in
  let skillMultiplier :=
    (playerSkill - (requiredSkill - Num 1)) / playerSkill in
  let balanceFactor := Num 240 in
  let percentMoneyStolen :=
    (difficultyMultiplier * skillMultiplier * hackStealMultiplier)
    / balanceFactor in
  clamp percentMoneyStolen (Num 0) (Num 1).

(** thread-utils.ts, [getHackThreads]. *)
Definition getHackThreads (ns : NS) (metrics : Metrics) : number :=
  let hackPercent :=
    if fileExists ns "Formulas.exe" (Some "home"%string) then
      let player := getPlayer ns in
      let server := server (target metrics) in
      formulas_hacking_hackPercent ns server player
    else
      getHackEffect ns (target metrics) in
  let hackThreads := Math_floor (jround rnd (greed metrics / hackPercent)) in
  hackThreads.

(** thread-utils.ts, [growthAnalyzeDynamic]. *)
Definition growthAnalyzeDynamic
    (ns : NS) (target : Target) (multiplier : number) : number :=
  let hostname := hostname (server target) in
  let hackDifficulty := getServerSecurityLevel ns hostname in
  let baseGrowthRate := Num 1.003 in
  let adjustedGrowthRate :=
    Num 1 + (baseGrowthRate - Num 1) / hackDifficulty in
  let adjustedGrowthRate := Math_min adjustedGrowthRate (Num 1.0035) in
  let serverGrowthPercent := getServerGrowth ns hostname / Num 100 in
  let growMultiplier := mults_hacking_grow (getPlayer ns) in
  let threads :=
    Math_log multiplier
    / (Math_log adjustedGrowthRate * growMultiplier * serverGrowthPercent) in
  threads.

(** thread-utils.ts, [createMockServer]: the server of the target with
    its money and security overwritten by the target's own values. The
    source assigns the two fields on [target.server] itself; the value
    returned is what the oracle is called with. *)
Definition createMockServer (ns : NS) (target : Target) : Server :=
  let mockServer := formulas_mockServer ns in
  let mockServer := server target in
  let money := moneyAvailable target in
  let sec := hackDifficulty target in
  mkServer (hostname mockServer) money sec.

(** thread-utils.ts, [getGrowThreads]. *)
Definition getGrowThreads (ns : NS) (target : Target) : number :=
  let maxMoney := moneyMax target in
  let money := moneyAvailable target in
  let growThreads :=
    if fileExists ns "Formulas.exe" None then
      let predictedServer := createMockServer ns target in
      formulas_hacking_growThreads ns predictedServer (getPlayer ns) maxMoney
    else
      let multiplier := maxMoney / Math_max money (Num 1) in
      growthAnalyzeDynamic ns target multiplier in
  let growThreads := Math_ceil growThreads in
  growThreads.

(** thread-utils.ts, [calculateThreads]. *)
Definition calculateThreads (ns : NS) (metrics : Metrics) : list number :=
  let hackThreads := getHackThreads ns metrics in
  let hackWeakenThreads := Math_ceil (hackThreads / Num 25) in
  let growThreads :=
    Math_floor
      (growthAnalyzeDynamic ns (target metrics) (Num 1 + greed metrics)) in
  let growWeakenThreads := Math_ceil (growThreads / Num 12.5) in
  let threads :=
    [hackThreads; hackWeakenThreads; growThreads; growWeakenThreads] in
  threads.

(** thread-utils.ts, [calculateDelays]. *)
Definition calculateDelays (ns : NS) (controller : Controller)
    : list number :=
  let target := hostname (server (target (metrics controller))) in
  let hackTime := getHackTime ns target in
  let growTime := getGrowTime ns target in
  let weakenTime := getWeakenTime ns target in
  let taskDelay := taskDelay (metrics controller) in
  let hackDelay := weakenTime - hackTime - taskDelay in
  let weaken1Delay := Num 0 in
  let growDelay := weakenTime - growTime + taskDelay in
  let weaken2Delay := taskDelay * Num 2 in
  let delays := [hackDelay; weaken1Delay; growDelay; weaken2Delay] in
  delays.

(** The kinds of the four tasks of a batch, in their fixed order. *)
Definition batchKinds : list (Kind * Phase) :=
  [(Extract, Primary); (Fortify, Primary);
   (Replenish, Primary); (Fortify, Secondary)].

(** Modelled from the spec: [createBatchTasks] of [/hacking/task] is not
    among the source files. The specification's BatchAssembler invokes the
    thread calculation, then the delay calculation, and wraps the results
    into four tasks in the fixed kind order; a thread count that the raw
    computation rounds to 0 is raised to 1 at this boundary. *)
Definition createBatchTasks (ns : NS) (controller : Controller)
    : list Task :=
  let threads := calculateThreads ns (metrics controller) in
  let delays := calculateDelays ns controller in
  map (fun '((k, p), (t, d)) => mkTask k p (Math_max (Num 1) t) d)
      (combine batchKinds (combine threads delays)).

(** deploy-scripts.ts, [createBatch]. *)
Definition createBatch (ns : NS) (controller : Controller) : Batch :=
  let tasks := createBatchTasks ns controller in
  let batch :=
    {| batch_target := server (controller_target controller);
       hosts := getUsableHosts ns;
       tasks := tasks |} in
  batch.

End Program.

(* ================================================================== *)
(** ** The specification's formulas                                     *)
(* ================================================================== *)

Section Specification.

Local Open Scope js_scope.

Variable clamp : number -> number -> number -> number.

(** The extraction-yield fraction of the selected path of the effect model:
    the oracle when the exact-formula capability is available, the analytic
    formula otherwise. *)
Definition extractionYieldFraction (ns : NS) (metrics : Metrics) : number :=
  if fileExists ns "Formulas.exe" (Some "home"%string)
  then formulas_hacking_hackPercent ns (server (target metrics)) (getPlayer ns)
  else getHackEffect clamp ns (target metrics).

(** The analytic extraction-yield fraction as the specification writes it. *)
Definition analyticYieldFraction
    (hardening hackingSkill requiredSkill extractionMultiplier : number)
    : number :=
  clamp
    ((Num 100 - hardening) / Num 100
     * ((hackingSkill - (requiredSkill - Num 1)) / hackingSkill)
     * extractionMultiplier / Num 240)
    (Num 0) (Num 1).

(** The analytic replenish-thread estimate as the specification writes it. *)
Definition replenishThreadsFor
    (hardening growthRate regrowthMultiplier targetMultiplier : number)
    : number :=
  let adjustedGrowthRate :=
    Math_min (Num 1 + Num 0.003 / hardening) (Num 1.0035) in
  Math_log targetMultiplier
  / (Math_log adjustedGrowthRate * regrowthMultiplier
     * (growthRate / Num 100)).

(** The landing time of each operation: its delay plus its duration, in the
    order of the delay vector. *)
Definition landingTimes (ns : NS) (controller : Controller) : list number :=
  let host := hostname (server (target (metrics controller))) in
  let durations :=
    [getHackTime ns host; getWeakenTime ns host;
     getGrowTime ns host; getWeakenTime ns host] in
  map (fun '(d, t) => d + t) (combine (calculateDelays ns controller) durations).

(** An input on which the thread calculation is not degenerate: the
    extraction-yield fraction is positive, greed is positive, and the
    security level, growth and growth multiplier the analytic growth formula
    divides by are positive. *)
Definition nonDegenerate (ns : NS) (metrics : Metrics) : Prop :=
  let host := hostname (server (target metrics)) in
  exists f g h sg gm : R,
    extractionYieldFraction ns metrics = Num f /\ 0 < f /\
    greed metrics = Num g /\ 0 < g /\
    getServerSecurityLevel ns host = Num h /\ 0 < h /\
    getServerGrowth ns host = Num sg /\ 0 < sg /\
    mults_hacking_grow (getPlayer ns) = Num gm /\ 0 < gm.

End Specification.

(** Ceiling of [t / 25] and of [t / 12.5] on the integers. *)
Definition ceilDiv25 (t : Z) : Z := ((t + 24) / 25)%Z.
Definition ceilDiv12_5 (t : Z) : Z := ((2 * t + 24) / 25)%Z.

(* ================================================================== *)
(** ** Concrete environments                                            *)
(* ================================================================== *)

(** The usual [clamp]: [Math.min(Math.max(value, min), max)]. *)
Definition clampMinMax (value lo hi : number) : number :=
  Math_min (Math_max value lo) hi.

Definition noHosts (ns : NS) : list Server := [].

Definition n00dles : Server := mkServer "n00dles" (Num 1000000) (Num 1).

(** A node at full yield: yield 1,000,000 of 1,000,000. *)
Definition fullTarget (hardening : number) : Target :=
  mkTarget n00dles hardening (Num 1000000) (Num 1000000).

(** An environment: whether the oracle is installed and what it answers,
    the operator, and what the game reports for the node. *)
Definition gameNS (formulas : bool) (oraclePercent : number)
    (player : Player) (requiredSkill security growth : number)
    (hackTime growTime weakenTime : number) : NS :=
  {| fileExists := fun _ _ => formulas;
     getPlayer := player;
     formulas_hacking_hackPercent := fun _ _ => oraclePercent;
     formulas_hacking_growThreads := fun _ _ _ => Num 0;
     formulas_mockServer := mkServer "" (Num 0) (Num 0);
     getServerRequiredHackingLevel := fun _ => requiredSkill;
     getServerSecurityLevel := fun _ => security;
     getServerGrowth := fun _ => growth;
     getHackTime := fun _ => hackTime;
     getGrowTime := fun _ => growTime;
     getWeakenTime := fun _ => weakenTime |}.

(** The timing example of the specification: weakenTime 20, hackTime 5,
    growTime 10, taskDelay 2. *)
Definition timingNS : NS :=
  gameNS false (Num 0) (mkPlayer (Num 1) (Num 1) (Num 1))
         (Num 1) (Num 1) (Num 100) (Num 5) (Num 10) (Num 20).

Definition timingController : Controller :=
  let t := fullTarget (Num 1) in
  mkController (mkMetrics t (Num 0.5) (Num 2)) t.

(** The same timings with a spacing of 0. *)
Definition zeroSpacingController : Controller :=
  let t := fullTarget (Num 1) in
  mkController (mkMetrics t (Num 0.5) (Num 0)) t.

(** The scenario of the specification: the oracle reports an extraction
    fraction of 0.05 and greed is 0.5. *)
Definition oracleNS : NS :=
  gameNS true (Num 0.05) (mkPlayer (Num 100) (Num 1) (Num 1))
         (Num 1) (Num 1) (Num 100) (Num 5) (Num 10) (Num 20).

Definition halfGreed : Metrics := mkMetrics (fullTarget (Num 1)) (Num 0.5) (Num 2).

(** A small batch whose four raw thread counts are known exactly: the
    oracle reports 0.0001, greed is 0.003 and the security level is 1, so
    that 1 + greed is the adjusted growth rate 1.003. *)
Definition smallNS : NS :=
  gameNS true (Num 0.0001) (mkPlayer (Num 100) (Num 1) (Num 1))
         (Num 1) (Num 1) (Num 100) (Num 5) (Num 10) (Num 20).

Definition smallGreed : Metrics :=
  mkMetrics (fullTarget (Num 1)) (Num 0.003) (Num 2).

(** The same batch against a node whose extraction fraction (0.01) exceeds
    greed: the raw extraction thread count is 0. *)
Definition richNS : NS :=
  gameNS true (Num 0.01) (mkPlayer (Num 100) (Num 1) (Num 1))
         (Num 1) (Num 1) (Num 100) (Num 5) (Num 10) (Num 20).

(** An under-levelled operator without the oracle: hacking skill 10 against
    a required skill of 100. *)
Definition underLevelledNS : NS :=
  gameNS false (Num 0) (mkPlayer (Num 10) (Num 1) (Num 1))
         (Num 100) (Num 10) (Num 100) (Num 5) (Num 10) (Num 20).

Definition hardenedGreed : Metrics :=
  mkMetrics (fullTarget (Num 10)) (Num 0.5) (Num 2).

(** No oracle, a node at full yield and security 1. *)
Definition analyticNS : NS :=
  gameNS false (Num 0) (mkPlayer (Num 100) (Num 1) (Num 1))
         (Num 1) (Num 1) (Num 100) (Num 5) (Num 10) (Num 20).

(* ================================================================== *)
(** ** Restoring the security level                                     *)
(* ================================================================== *)

(** [Math.abs]. *)
Definition Math_abs (x : number) : number :=
  match x with
  | Num a => Num (Rabs a)
  | PosInfinity | NegInfinity => PosInfinity
  | NaN => NaN
  end.

(** The two members of [ns] that only [getMinSecThreads] reads. *)
Record NSWeaken : Type := mkNSWeaken {
  getServerMinSecurityLevel : string -> number;
  weakenAnalyze : number -> number
}.

(** thread-utils.ts, [getMinSecThreads]. *)
Definition getMinSecThreads (rnd : Rounding) (ns : NSWeaken) (target : Target)
    : number :=
  let hostname := hostname (server target) in
  let minSec := getServerMinSecurityLevel ns hostname in
  let sec := hackDifficulty target in
  let weakenEffect := weakenAnalyze ns (Num 1) in
  let weakenThreads :=
    jround rnd (Math_abs (sec - minSec) / weakenEffect)%js in
  Math_ceil weakenThreads.

(** The growth a thread count achieves in the game's growth formula, of
    which [growthAnalyzeDynamic] is the inverse: the adjusted rate to the
    power threads * growMultiplier * growth / 100. *)
Definition growthOf (h gm sg threads : R) : R :=
  Rpower (Rmin (1 + 0.003 / h) 1.0035) (threads * gm * (sg / 100)).

(** A weaken thread lowers the security level by 0.05; the minimum of the
    node is 1. *)
Definition weakenNS : NSWeaken :=
  mkNSWeaken (fun _ => Num 1) (fun _ => Num 0.05).

(** A node without money, and a node drained of its money. *)
Definition emptyTarget : Target := mkTarget n00dles (Num 1) (Num 0) (Num 0).
Definition drainedTarget : Target :=
  mkTarget n00dles (Num 1) (Num 1000000) (Num 0).

(** No oracle and a security level of 0. *)
Definition unsecuredNS : NS :=
  gameNS false (Num 0) (mkPlayer (Num 100) (Num 1) (Num 1))
         (Num 1) (Num 0) (Num 100) (Num 5) (Num 10) (Num 20).

(* ================================================================== *)
(** ** Arithmetic of the number model                                   *)
(* ================================================================== *)

Lemma jdiv_finite (a b : R) : b <> 0 -> jdiv (Num a) (Num b) = Num (a / b).
Proof.
  intros Hb. unfold jdiv. destruct (Req_dec_T b 0) as [E | _]; [contradiction | reflexivity].
Qed.

Lemma jdiv_by_zero (a : R) : jdiv (Num a) (Num 0) = infinityOfSign a.
Proof.
  unfold jdiv. destruct (Req_dec_T 0 0) as [_ | N]; [reflexivity | now elim N].
Qed.

Lemma infinityOfSign_pos (a : R) : 0 < a -> infinityOfSign a = PosInfinity.
Proof.
  intros Ha. unfold infinityOfSign.
  destruct (total_order_T a 0) as [[L | E] | G]; try reflexivity; lra.
Qed.

Lemma infinityOfSign_zero : infinityOfSign 0 = NaN.
Proof.
  unfold infinityOfSign.
  destruct (total_order_T 0 0) as [[L | E] | G]; try reflexivity; lra.
Qed.

Lemma infinityOfSign_neg (a : R) : a < 0 -> infinityOfSign a = NegInfinity.
Proof.
  intros Ha. unfold infinityOfSign.
  destruct (total_order_T a 0) as [[L | E] | G]; try reflexivity; lra.
Qed.

Lemma Math_log_pos (a : R) : 0 < a -> Math_log (Num a) = Num (ln a).
Proof.
  intros Ha. unfold Math_log.
  destruct (total_order_T a 0) as [[L | E] | G]; try reflexivity; lra.
Qed.

Lemma jsub_finite (a b : R) : jsub (Num a) (Num b) = Num (a - b).
Proof. reflexivity. Qed.

Lemma Zceil_eq (z : Z) (x : R) : IZR z - 1 < x <= IZR z -> Zceil x = z.
Proof.
  intros H. unfold Zceil.
  rewrite (Zfloor_eq (- z) (- x)); [lia |].
  rewrite opp_IZR. lra.
Qed.

Lemma Zfloor_nonneg (x : R) : 0 <= x -> (0 <= Zfloor x)%Z.
Proof. intros H. apply Zfloor_lub. exact H. Qed.

Lemma Zceil_nonneg (x : R) : 0 <= x -> (0 <= Zceil x)%Z.
Proof.
  intros H. pose proof (Zceil_bound x) as [_ B].
  apply le_IZR. lra.
Qed.

(** The integer ceilings of [t / 25] and [t / 12.5]. *)
Lemma Zceil_div25 (t : Z) : Zceil (IZR t / 25) = ceilDiv25 t.
Proof.
  unfold ceilDiv25. apply Zceil_eq.
  pose proof (Z.div_mod (t + 24) 25 ltac:(lia)) as E.
  pose proof (Z.mod_pos_bound (t + 24) 25 ltac:(lia)) as B.
  set (q := ((t + 24) / 25)%Z) in *. set (m := ((t + 24) mod 25)%Z) in *.
  assert (Ht : (t = 25 * q + m - 24)%Z) by lia.
  rewrite Ht, minus_IZR, plus_IZR, mult_IZR.
  assert (0 <= IZR m <= 24) as [M0 M1].
  { split; apply IZR_le; lia. }
  lra.
Qed.

Lemma Zceil_div12_5 (t : Z) : Zceil (IZR t / 12.5) = ceilDiv12_5 t.
Proof.
  unfold ceilDiv12_5. apply Zceil_eq.
  pose proof (Z.div_mod (2 * t + 24) 25 ltac:(lia)) as E.
  pose proof (Z.mod_pos_bound (2 * t + 24) 25 ltac:(lia)) as B.
  set (q := ((2 * t + 24) / 25)%Z) in *. set (m := ((2 * t + 24) mod 25)%Z) in *.
  assert (Ht : (2 * t = 25 * q + m - 24)%Z) by lia.
  assert (Hr : 2 * IZR t = 25 * IZR q + IZR m - 24).
  { rewrite <- mult_IZR, Ht, minus_IZR, plus_IZR, mult_IZR. reflexivity. }
  assert (0 <= IZR m <= 24) as [M0 M1].
  { split; apply IZR_le; lia. }
  lra.
Qed.

(* ================================================================== *)
(** ** Delays                                                           *)
(* ================================================================== *)

Section Delays.

Variables (ns : NS) (controller : Controller).

(** On finite durations and spacing the four offsets are real numbers. *)
Lemma calculateDelays_finite (h g w s : R) :
  let host := hostname (server (target (metrics controller))) in
  getHackTime ns host = Num h ->
  getGrowTime ns host = Num g ->
  getWeakenTime ns host = Num w ->
  taskDelay (metrics controller) = Num s ->
  calculateDelays ns controller =
    [Num (w - h - s); Num 0; Num (w - g + s); Num (s * 2)].
Proof.
  intros host Hh Hg Hw Hs. subst host. unfold calculateDelays.
  rewrite Hh, Hg, Hw, Hs. reflexivity.
Qed.

(** Whatever the durations, the operations land at [w - s], [w], [w + s]
    and [w + 2 s]: the durations of Extract and Replenish cancel. *)
Lemma landingTimes_finite (h g w s : R) :
  let host := hostname (server (target (metrics controller))) in
  getHackTime ns host = Num h ->
  getGrowTime ns host = Num g ->
  getWeakenTime ns host = Num w ->
  taskDelay (metrics controller) = Num s ->
  landingTimes ns controller =
    [Num (w - s); Num w; Num (w + s); Num (w + 2 * s)].
Proof.
  intros host Hh Hg Hw Hs. subst host. unfold landingTimes.
  rewrite (calculateDelays_finite h g w s Hh Hg Hw Hs), Hh, Hg, Hw.
  cbn [combine map jadd].
  repeat (f_equal; try lra).
Qed.

End Delays.

(** C2. For every input [calculateDelays] returns, in this order, the
    Extract delay [weakenTime - hackTime - taskDelay], the first Fortify
    delay [0], the Replenish delay [weakenTime - growTime + taskDelay] and
    the second Fortify delay [taskDelay * 2]; on finite durations and spacing
    these are the real numbers [w - h - s], [0], [w - g + s] and [s * 2]. *)
Theorem calculateDelays_offsets (ns : NS) (controller : Controller) :
  let host := hostname (server (target (metrics controller))) in
  let hackTime := getHackTime ns host in
  let growTime := getGrowTime ns host in
  let weakenTime := getWeakenTime ns host in
  let taskDelay := taskDelay (metrics controller) in
  calculateDelays ns controller =
    [weakenTime - hackTime - taskDelay; Num 0;
     weakenTime - growTime + taskDelay; taskDelay * Num 2]%js
  /\ forall h g w s : R,
       hackTime = Num h -> growTime = Num g -> weakenTime = Num w ->
       taskDelay = Num s ->
       calculateDelays ns controller =
         [Num (w - h - s); Num 0; Num (w - g + s); Num (s * 2)].
Proof.
  cbv zeta. split.
  - reflexivity.
  - intros h g w s. apply calculateDelays_finite.
Qed.

Lemma calculateDelays_example :
  calculateDelays timingNS timingController = [Num 13; Num 0; Num 12; Num 4].
Proof.
  rewrite (calculateDelays_finite timingNS timingController 5 10 20 2)
    by reflexivity.
  repeat (f_equal; try lra).
Qed.

Lemma calculateDelays_offsets_witness :
  calculateDelays timingNS timingController =
    [Num (20 - 5 - 2); Num 0; Num (20 - 10 + 2); Num (2 * 2)].
Proof.
  exact (proj2 (calculateDelays_offsets timingNS timingController)
               5 10 20 2 eq_refl eq_refl eq_refl eq_refl).
Defined.

(** C1, amended. When the durations are finite, the spacing [taskDelay] is
    positive and [weakenTime >= max(hackTime, growTime) + taskDelay], the
    landing times delay + duration of Extract, Fortify-for-Extract,
    Replenish and Fortify-for-Replenish are strictly increasing in that
    order, each consecutive pair at least [taskDelay] apart. *)
Theorem landing_order (ns : NS) (controller : Controller) (h g w s : R) :
  let host := hostname (server (target (metrics controller))) in
  getHackTime ns host = Num h ->
  getGrowTime ns host = Num g ->
  getWeakenTime ns host = Num w ->
  taskDelay (metrics controller) = Num s ->
  0 < s ->
  Rmax h g + s <= w ->
  exists extract fortify1 replenish fortify2 : R,
    landingTimes ns controller =
      [Num extract; Num fortify1; Num replenish; Num fortify2]
    /\ extract = h + (w - h - s) /\ fortify1 = w + 0
    /\ replenish = g + (w - g + s) /\ fortify2 = w + s * 2
    /\ extract < fortify1 /\ fortify1 < replenish /\ replenish < fortify2
    /\ s <= fortify1 - extract
    /\ s <= replenish - fortify1
    /\ s <= fortify2 - replenish.
Proof.
  intros host Hh Hg Hw Hs Hpos _.
  exists (w - s), w, (w + s), (w + 2 * s).
  split; [now apply landingTimes_finite with (h := h) (g := g) |].
  repeat split; lra.
Qed.

Lemma landing_order_witness :
  exists extract fortify1 replenish fortify2 : R,
    landingTimes timingNS timingController =
      [Num extract; Num fortify1; Num replenish; Num fortify2]
    /\ extract = 5 + (20 - 5 - 2) /\ fortify1 = 20 + 0
    /\ replenish = 10 + (20 - 10 + 2) /\ fortify2 = 20 + 2 * 2
    /\ extract < fortify1 /\ fortify1 < replenish /\ replenish < fortify2
    /\ 2 <= fortify1 - extract
    /\ 2 <= replenish - fortify1
    /\ 2 <= fortify2 - replenish.
Proof.
  apply (landing_order timingNS timingController 5 10 20 2);
    try reflexivity; [lra |].
  unfold Rmax. destruct (Rle_dec 5 10); lra.
Defined.

(** The landing times of the specification's example: 18, 20, 22, 24. *)
Lemma landingTimes_example :
  landingTimes timingNS timingController = [Num 18; Num 20; Num 22; Num 24].
Proof.
  rewrite (landingTimes_finite timingNS timingController 5 10 20 2)
    by reflexivity.
  repeat (f_equal; try lra).
Qed.

(** Without a positive spacing the order is not strict: at [taskDelay = 0]
    the four operations land together. *)
Lemma landingTimes_zero_spacing (ns : NS) (controller : Controller) (h g w : R) :
  let host := hostname (server (target (metrics controller))) in
  getHackTime ns host = Num h ->
  getGrowTime ns host = Num g ->
  getWeakenTime ns host = Num w ->
  taskDelay (metrics controller) = Num 0 ->
  landingTimes ns controller = [Num w; Num w; Num w; Num w].
Proof.
  intros host Hh Hg Hw Hs.
  rewrite (landingTimes_finite ns controller h g w 0 Hh Hg Hw Hs).
  repeat (f_equal; try lra).
Qed.

(** C1, as stated, fails: a spacing of 0 satisfies
    [weakenTime >= max(hackTime, growTime) + taskDelay] with hackTime 5,
    growTime 10 and weakenTime 20, and the four operations all land at 20,
    in no strict order. *)
Lemma landing_not_strict_at_zero_spacing :
  taskDelay (metrics zeroSpacingController) = Num 0
  /\ Rmax 5 10 + 0 <= 20
  /\ ~ (exists extract fortify1 replenish fortify2 : R,
          landingTimes timingNS zeroSpacingController =
            [Num extract; Num fortify1; Num replenish; Num fortify2]
          /\ extract < fortify1 /\ fortify1 < replenish
          /\ replenish < fortify2).
Proof.
  split; [reflexivity |]. split.
  - unfold Rmax. destruct (Rle_dec 5 10); lra.
  - rewrite (landingTimes_zero_spacing timingNS zeroSpacingController 5 10 20)
      by reflexivity.
    intros (e & f1 & r & f2 & E & H1 & H2 & H3).
    injection E as E0 E1 E2 E3. lra.
Qed.

(** C10, as stated, fails: the first element of the delay vector is the
    Extract delay, 13 in the specification's own example. *)
Lemma first_delay_not_zero :
  index (calculateDelays timingNS timingController) 0 <> Some (Num 0).
Proof.
  rewrite calculateDelays_example. cbn [index nth_error].
  intros H. injection H. lra.
Qed.

(** C10, amended. The delay vector is ordered Extract, Fortify, Replenish,
    Fortify: its second element, the delay of the first Fortify, is always
    0, and its first element is the Extract delay
    [weakenTime - hackTime - taskDelay]. *)
Theorem second_delay_zero (ns : NS) (controller : Controller) :
  let host := hostname (server (target (metrics controller))) in
  index (calculateDelays ns controller) 1 = Some (Num 0)
  /\ index (calculateDelays ns controller) 0 =
       Some (getWeakenTime ns host - getHackTime ns host
             - taskDelay (metrics controller))%js
  /\ List.length (calculateDelays ns controller) = 4%nat.
Proof.
  cbv zeta. repeat split.
Qed.

(* ================================================================== *)
(** ** Extraction                                                       *)
(* ================================================================== *)

Section Extraction.

Variable rnd : Rounding.
Variable clamp : number -> number -> number -> number.

(** [getHackThreads] floors the rounded quotient of greed over the fraction
    of the selected path. *)
Lemma getHackThreads_eq (ns : NS) (metrics : Metrics) :
  getHackThreads rnd clamp ns metrics =
  Math_floor
    (jround rnd (greed metrics / extractionYieldFraction clamp ns metrics)%js).
Proof. reflexivity. Qed.

(** A rounded quotient of a non-negative number over a positive one is not
    negative. *)
Lemma fl_quotient_nonneg (g f : R) : 0 <= g -> 0 < f -> 0 <= fl rnd (g / f).
Proof.
  intros Hg Hf. rewrite <- (fl_zero rnd). apply fl_monotone.
  unfold Rdiv. apply Rmult_le_pos; [exact Hg |].
  left. apply Rinv_0_lt_compat. exact Hf.
Qed.

(** The analytic fraction before the clamp, on finite inputs. *)
Lemma getHackEffect_finite (ns : NS) (target : Target) (d s r m : R) :
  hackDifficulty target = Num d ->
  skills_hacking (getPlayer ns) = Num s ->
  getServerRequiredHackingLevel ns (hostname (server target)) = Num r ->
  mults_hacking_money (getPlayer ns) = Num m ->
  s <> 0 ->
  getHackEffect clamp ns target =
    clamp (Num ((100 - d) / 100 * ((s - (r - 1)) / s) * m / 240))
          (Num 0) (Num 1).
Proof.
  intros Hd Hs Hr Hm Hs0. unfold getHackEffect.
  rewrite Hd, Hs, Hr, Hm. rewrite !jsub_finite.
  rewrite (jdiv_finite (100 - d) 100) by lra.
  rewrite (jdiv_finite (s - (r - 1)) s) by exact Hs0.
  cbn [jmul]. rewrite jdiv_finite by lra. reflexivity.
Qed.

End Extraction.

(** C4. The analytic extraction-yield fraction is
    [clamp(((100 - hardening) / 100) * ((hackingSkill - (requiredSkill - 1))
    / hackingSkill) * extractionMultiplier / 240, 0, 1)]: one clamp, applied
    last, to a product whose skill factor is not clamped and may be
    negative; on finite inputs with a non-zero hacking skill the clamped
    value is that real number. *)
Theorem getHackEffect_formula
    (clamp : number -> number -> number -> number) (ns : NS) (target : Target) :
  let hardening := hackDifficulty target in
  let hackingSkill := skills_hacking (getPlayer ns) in
  let requiredSkill :=
    getServerRequiredHackingLevel ns (hostname (server target)) in
  let extractionMultiplier := mults_hacking_money (getPlayer ns) in
  getHackEffect clamp ns target =
    analyticYieldFraction clamp hardening hackingSkill requiredSkill
                          extractionMultiplier
  /\ forall d s r m : R,
       hardening = Num d -> hackingSkill = Num s -> requiredSkill = Num r ->
       extractionMultiplier = Num m -> s <> 0 ->
       getHackEffect clamp ns target =
         clamp (Num ((100 - d) / 100 * ((s - (r - 1)) / s) * m / 240))
               (Num 0) (Num 1).
Proof.
  cbv zeta. split.
  - reflexivity.
  - intros d s r m. apply getHackEffect_finite.
Qed.

Lemma getHackEffect_formula_witness :
  getHackEffect clampMinMax underLevelledNS (fullTarget (Num 10)) =
    clampMinMax
      (Num ((100 - 10) / 100 * ((10 - (100 - 1)) / 10) * 1 / 240))
      (Num 0) (Num 1).
Proof.
  apply (proj2 (getHackEffect_formula clampMinMax underLevelledNS
                                      (fullTarget (Num 10)))
               10 10 100 1); try reflexivity.
  lra.
Defined.

(** The skill factor of the under-levelled operator is negative, and the
    final clamp turns the negative product into 0. *)
Lemma underLevelled_fraction :
  (10 - (100 - 1)) / 10 < 0 /\
  getHackEffect clampMinMax underLevelledNS (fullTarget (Num 10)) = Num 0.
Proof.
  split; [lra |].
  rewrite (getHackEffect_finite clampMinMax underLevelledNS
             (fullTarget (Num 10)) 10 10 100 1) by (try reflexivity; lra).
  unfold clampMinMax. cbn [Math_max Math_min].
  rewrite Rmax_right by lra. rewrite Rmin_left by lra. reflexivity.
Qed.

(** C3. When the extraction-yield fraction of the selected path (the oracle
    if it is available, the analytic formula otherwise) is a positive number
    [f] and greed is a number [g >= 0] (the data model has [0 < greed <= 1]),
    [getHackThreads] returns exactly the floor of the quotient [g / f] as
    the double division gives it, [floor(fl(g / f))], a non-negative
    integer. *)
Theorem getHackThreads_floor
    (rnd : Rounding)
    (clamp : number -> number -> number -> number)
    (ns : NS) (metrics : Metrics) (f g : R) :
  extractionYieldFraction clamp ns metrics = Num f ->
  0 < f ->
  greed metrics = Num g ->
  0 <= g ->
  getHackThreads rnd clamp ns metrics = Num (IZR (Zfloor (fl rnd (g / f))))
  /\ (0 <= Zfloor (fl rnd (g / f)))%Z.
Proof.
  intros Hf Hpos Hg Hg0. split.
  - rewrite getHackThreads_eq, Hf, Hg, jdiv_finite by lra. reflexivity.
  - apply Zfloor_nonneg. apply fl_quotient_nonneg; assumption.
Qed.

Lemma getHackThreads_floor_witness :
  getHackThreads exactRounding clampMinMax oracleNS halfGreed
    = Num (IZR (Zfloor (fl exactRounding (0.5 / 0.05))))
  /\ (0 <= Zfloor (fl exactRounding (0.5 / 0.05)))%Z.
Proof.
  apply (getHackThreads_floor exactRounding clampMinMax oracleNS halfGreed 0.05 0.5);
    try reflexivity; lra.
Defined.

(** The scenario of the specification: greed 0.5 over a fraction of 0.05
    gives 10 extraction threads. *)
Lemma getHackThreads_scenario :
  getHackThreads exactRounding clampMinMax oracleNS halfGreed = Num 10.
Proof.
  rewrite getHackThreads_eq. cbn [extractionYieldFraction oracleNS gameNS
    fileExists formulas_hacking_hackPercent greed halfGreed].
  rewrite jdiv_finite by lra. cbn [Math_floor jround fl exactRounding].
  rewrite (Zfloor_eq 10 (0.5 / 0.05)) by lra. reflexivity.
Qed.

Lemma underLevelled_selected_fraction :
  extractionYieldFraction clampMinMax underLevelledNS hardenedGreed = Num 0.
Proof. exact (proj2 underLevelled_fraction). Qed.

(** C9, as stated, fails: the under-levelled operator has an
    extraction-yield fraction of 0 and [getHackThreads] returns [Infinity];
    no failure is raised. *)
Lemma zero_fraction_gives_infinity :
  extractionYieldFraction clampMinMax underLevelledNS hardenedGreed = Num 0
  /\ getHackThreads exactRounding clampMinMax underLevelledNS hardenedGreed = PosInfinity.
Proof.
  pose proof underLevelled_selected_fraction as E.
  split; [exact E |].
  rewrite getHackThreads_eq, E. cbn [greed hardenedGreed].
  rewrite jdiv_by_zero, infinityOfSign_pos by lra. reflexivity.
Qed.

(** C9, amended. [getHackThreads] has no failure path: it returns a number
    on every input. When the extraction-yield fraction is a number
    [f <= 0] and greed is positive, either [f = 0] and it returns
    [Infinity], or [f < 0] and it returns the negative integer
    [floor(greed / f)], the quotient being the one of the double
    division. *)
Theorem getHackThreads_degenerate
    (rnd : Rounding)
    (clamp : number -> number -> number -> number)
    (ns : NS) (metrics : Metrics) (f g : R) :
  extractionYieldFraction clamp ns metrics = Num f ->
  f <= 0 ->
  greed metrics = Num g ->
  0 < g ->
  (f = 0 /\ getHackThreads rnd clamp ns metrics = PosInfinity)
  \/ (f < 0 /\
      getHackThreads rnd clamp ns metrics
        = Num (IZR (Zfloor (fl rnd (g / f))))
      /\ (Zfloor (fl rnd (g / f)) < 0)%Z).
Proof.
  intros Hf Hle Hg Hpos. rewrite getHackThreads_eq, Hf, Hg.
  destruct Hle as [Hneg | ->].
  - right. rewrite jdiv_finite by lra. repeat split; [exact Hneg |].
    pose proof (Zfloor_bound (fl rnd (g / f))) as [B _].
    assert (Hq : g / f < 0).
    { unfold Rdiv. apply Rmult_pos_neg; [exact Hpos |].
      apply Rinv_lt_0_compat. exact Hneg. }
    pose proof (fl_negative rnd _ Hq) as Hfl.
    apply lt_IZR. lra.
  - left. rewrite jdiv_by_zero, infinityOfSign_pos by exact Hpos.
    split; reflexivity.
Qed.

Lemma getHackThreads_degenerate_witness :
  (0 = 0 /\ getHackThreads exactRounding clampMinMax underLevelledNS hardenedGreed
            = PosInfinity)
  \/ (0 < 0 /\
      getHackThreads exactRounding clampMinMax underLevelledNS hardenedGreed
        = Num (IZR (Zfloor (fl exactRounding (0.5 / 0))))
      /\ (Zfloor (fl exactRounding (0.5 / 0)) < 0)%Z).
Proof.
  apply (getHackThreads_degenerate exactRounding clampMinMax underLevelledNS hardenedGreed
                                   0 0.5).
  - exact underLevelled_selected_fraction.
  - lra.
  - reflexivity.
  - lra.
Defined.

(* ================================================================== *)
(** ** Replenish                                                        *)
(* ================================================================== *)

Lemma ln_gt_1 (x : R) : 1 < x -> 0 < ln x.
Proof. intros H. rewrite <- ln_1. apply ln_increasing; lra. Qed.

(** The adjusted growth rate lies strictly between 1 and the cap. *)
Lemma adjusted_rate_bounds (h : R) :
  0 < h -> 1 < Rmin (1 + 0.003 / h) 1.0035 <= 1.0035.
Proof.
  intros Hh.
  assert (0 < 0.003 / h).
  { unfold Rdiv. apply Rmult_lt_0_compat; [lra |].
    apply Rinv_0_lt_compat. exact Hh. }
  split; [apply Rmin_glb_lt; lra | apply Rmin_r].
Qed.

Section Replenish.

Variables (ns : NS) (target : Target).

(** [growthAnalyzeDynamic] is the specification's estimate, at the security
    level, growth and growth multiplier the game reports. *)
Lemma growthAnalyzeDynamic_eq (multiplier : number) :
  growthAnalyzeDynamic ns target multiplier =
  replenishThreadsFor (getServerSecurityLevel ns (hostname (server target)))
                      (getServerGrowth ns (hostname (server target)))
                      (mults_hacking_grow (getPlayer ns)) multiplier.
Proof.
  unfold growthAnalyzeDynamic, replenishThreadsFor.
  rewrite jsub_finite.
  replace (1.003 - 1) with 0.003 by lra.
  reflexivity.
Qed.

(** The estimate as a real number, when the security level is positive and
    nothing the formula divides by is zero. *)
Lemma replenishThreadsFor_finite (h sg gm m : R) :
  0 < h -> sg <> 0 -> gm <> 0 -> 0 < m ->
  replenishThreadsFor (Num h) (Num sg) (Num gm) (Num m) =
    Num (ln m / (ln (Rmin (1 + 0.003 / h) 1.0035) * gm * (sg / 100))).
Proof.
  intros Hh Hsg Hgm Hm. unfold replenishThreadsFor.
  pose proof (adjusted_rate_bounds h Hh) as [Hlo _].
  pose proof (ln_gt_1 _ Hlo) as Hln.
  rewrite (jdiv_finite 0.003 h) by lra.
  cbn [jadd Math_min].
  rewrite (Math_log_pos m) by exact Hm.
  rewrite Math_log_pos by lra.
  rewrite (jdiv_finite sg 100) by lra.
  cbn [jmul].
  rewrite jdiv_finite; [reflexivity |].
  apply Rmult_integral_contrapositive_currified.
  - apply Rmult_integral_contrapositive_currified; [lra | exact Hgm].
  - unfold Rdiv. apply Rmult_integral_contrapositive_currified; [exact Hsg | lra].
Qed.

End Replenish.

(** C6. For every node, operator and target multiplier the analytic
    replenish-thread estimate is
    [ln(m) / (ln(adjustedGrowthRate) * regrowthMultiplier * (growthRate / 100))]
    with [adjustedGrowthRate = min(1 + 0.003 / hardening, 1.0035)], the
    hardening being the security level the game reports; for [m > 0], a
    positive hardening and a non-zero growth rate and multiplier this is the
    real number of that formula. *)
Theorem growthAnalyzeDynamic_formula
    (ns : NS) (target : Target) (multiplier : number) :
  let host := hostname (server target) in
  let hardening := getServerSecurityLevel ns host in
  let growthRate := getServerGrowth ns host in
  let regrowthMultiplier := mults_hacking_grow (getPlayer ns) in
  growthAnalyzeDynamic ns target multiplier =
    (Math_log multiplier
     / (Math_log (Math_min (Num 1 + Num 0.003 / hardening) (Num 1.0035))
        * regrowthMultiplier * (growthRate / Num 100)))%js
  /\ forall h sg gm m : R,
       hardening = Num h -> growthRate = Num sg ->
       regrowthMultiplier = Num gm -> multiplier = Num m ->
       0 < h -> sg <> 0 -> gm <> 0 -> 0 < m ->
       growthAnalyzeDynamic ns target multiplier =
         Num (ln m / (ln (Rmin (1 + 0.003 / h) 1.0035) * gm * (sg / 100))).
Proof.
  cbv zeta. split.
  - apply growthAnalyzeDynamic_eq.
  - intros h sg gm m Hh Hsg Hgm Hm H1 H2 H3 H4.
    rewrite growthAnalyzeDynamic_eq, Hh, Hsg, Hgm, Hm.
    now apply replenishThreadsFor_finite.
Qed.

Lemma growthAnalyzeDynamic_formula_witness :
  growthAnalyzeDynamic analyticNS (fullTarget (Num 1)) (Num 1.5) =
    Num (ln 1.5 / (ln (Rmin (1 + 0.003 / 1) 1.0035) * 1 * (100 / 100))).
Proof.
  apply (proj2 (growthAnalyzeDynamic_formula analyticNS (fullTarget (Num 1))
                                             (Num 1.5))
               1 100 1 1.5); try reflexivity; lra.
Defined.

(** [getGrowThreads] at full yield without the oracle: the multiplier is 1,
    its logarithm 0, and no thread is asked for. *)
Lemma getGrowThreads_full_yield :
  getGrowThreads analyticNS (fullTarget (Num 1)) = Num 0
  /\ Math_ceil
       (growthAnalyzeDynamic analyticNS (fullTarget (Num 1))
          (moneyMax (fullTarget (Num 1))
           / Math_max (moneyAvailable (fullTarget (Num 1))) (Num 1))%js)
     = Num 0.
Proof.
  assert (E : Math_ceil
       (growthAnalyzeDynamic analyticNS (fullTarget (Num 1))
          (moneyMax (fullTarget (Num 1))
           / Math_max (moneyAvailable (fullTarget (Num 1))) (Num 1))%js)
     = Num 0).
  { rewrite growthAnalyzeDynamic_eq.
    cbn [fullTarget moneyMax moneyAvailable Math_max analyticNS gameNS
         getServerSecurityLevel getServerGrowth getPlayer mults_hacking_grow].
    rewrite Rmax_left by lra.
    rewrite (jdiv_finite 1000000 1000000) by lra.
    replace (1000000 / 1000000) with 1 by lra.
    rewrite replenishThreadsFor_finite by lra.
    rewrite ln_1. cbn [Math_ceil].
    replace (0 / _) with 0 by (unfold Rdiv; ring).
    rewrite (Zceil_eq 0 0) by lra. reflexivity. }
  split; [exact E | exact E].
Qed.

(** The replenish count of the batch at the same node, with greed 0.5, is
    an integer of at least 1. *)
Lemma batch_growth_half_greed :
  exists k : Z,
    (1 <= k)%Z /\
    index (calculateThreads exactRounding clampMinMax analyticNS halfGreed) 2
      = Some (Num (IZR k)).
Proof.
  unfold calculateThreads. cbn [index nth_error].
  rewrite growthAnalyzeDynamic_eq.
  cbn [halfGreed target greed jadd fullTarget analyticNS gameNS server
       getServerSecurityLevel getServerGrowth getPlayer mults_hacking_grow].
  rewrite replenishThreadsFor_finite by lra.
  cbn [Math_floor].
  eexists; split; [| reflexivity].
  apply Zfloor_lub.
  pose proof (adjusted_rate_bounds 1 ltac:(lra)) as [Hlo Hhi].
  set (rate := Rmin (1 + 0.003 / 1) 1.0035) in *.
  pose proof (ln_gt_1 rate Hlo) as Hpos.
  assert (Hlt : ln rate < ln (1 + 0.5)) by (apply ln_increasing; lra).
  replace (ln (1 + 0.5) / (ln rate * 1 * (100 / 100)))
    with (ln (1 + 0.5) / ln rate) by (field; lra).
  apply (Rmult_le_reg_r (ln rate)); [exact Hpos |].
  replace (ln (1 + 0.5) / ln rate * ln rate) with (ln (1 + 0.5))
    by (field; lra).
  lra.
Qed.

(** C5, as stated, fails: at a node at full yield the ceiling of the
    analytic estimate at [yieldMax / max(yieldAvailable, 1)] is 0, and the
    replenish count of the batch is not. *)
Lemma batch_replenish_not_ceiling :
  let node := target halfGreed in
  index (calculateThreads exactRounding clampMinMax analyticNS halfGreed) 2 <>
  Some (Math_ceil
          (growthAnalyzeDynamic analyticNS node
             (moneyMax node / Math_max (moneyAvailable node) (Num 1))%js)).
Proof.
  cbv zeta. cbn [halfGreed target].
  rewrite (proj2 getGrowThreads_full_yield).
  destruct batch_growth_half_greed as (k & Hk & ->).
  intros H. injection H as H. apply eq_IZR in H. lia.
Qed.

(** C5, amended. [getGrowThreads] returns the ceiling of the oracle's
    answer when the oracle is available and otherwise the ceiling of the
    analytic estimate at [yieldMax / max(yieldAvailable, 1)]; the replenish
    count of a batch is another quantity, the floor of the analytic estimate
    at the multiplier [1 + greed]. *)
Theorem replenish_thread_counts
    (rnd : Rounding)
    (clamp : number -> number -> number -> number)
    (ns : NS) (metrics : Metrics) :
  let node := target metrics in
  let host := hostname (server node) in
  let estimate :=
    replenishThreadsFor (getServerSecurityLevel ns host)
                        (getServerGrowth ns host)
                        (mults_hacking_grow (getPlayer ns)) in
  getGrowThreads ns node =
    Math_ceil
      (if fileExists ns "Formulas.exe" None
       then formulas_hacking_growThreads ns (createMockServer ns node)
                                         (getPlayer ns) (moneyMax node)
       else estimate (moneyMax node / Math_max (moneyAvailable node) (Num 1))%js)
  /\ index (calculateThreads rnd clamp ns metrics) 2 =
       Some (Math_floor (estimate (Num 1 + greed metrics)%js)).
Proof.
  cbv zeta. split.
  - unfold getGrowThreads.
    destruct (fileExists ns "Formulas.exe" None); [reflexivity |].
    rewrite growthAnalyzeDynamic_eq. reflexivity.
  - unfold calculateThreads. cbn [index nth_error].
    rewrite growthAnalyzeDynamic_eq. reflexivity.
Qed.

(* ================================================================== *)
(** ** The thread-count vector and the batch                            *)
(* ================================================================== *)

Lemma Rmax_one_IZR (k : Z) : Rmax 1 (IZR k) = IZR (Z.max 1 k).
Proof.
  destruct (Z.max_spec 1 k) as [[H ->] | [H ->]].
  - apply Rmax_right. apply IZR_le. lia.
  - apply Rmax_left. apply IZR_le. lia.
Qed.

Section Threads.

Variable rnd : Rounding.
Variable clamp : number -> number -> number -> number.
Variables (ns : NS) (metrics : Metrics).

(** The four raw counts: both Fortify counts are ceilings of the count
    they offset, over 25 and over 12.5. *)
Lemma calculateThreads_integers (t u : Z) :
  getHackThreads rnd clamp ns metrics = Num (IZR t) ->
  Math_floor (growthAnalyzeDynamic ns (target metrics)
                                   (Num 1 + greed metrics)%js)
    = Num (IZR u) ->
  calculateThreads rnd clamp ns metrics =
    [Num (IZR t); Num (IZR (ceilDiv25 t));
     Num (IZR u); Num (IZR (ceilDiv12_5 u))].
Proof.
  intros Ht Hu. unfold calculateThreads. rewrite Ht, Hu.
  rewrite !jdiv_finite by lra. cbn [Math_ceil].
  rewrite Zceil_div25, Zceil_div12_5. reflexivity.
Qed.

(** On a non-degenerate input the four raw counts are non-negative
    integers. *)
Lemma calculateThreads_nonDegenerate :
  nonDegenerate clamp ns metrics ->
  exists t u : Z,
    (0 <= t)%Z /\ (0 <= u)%Z /\
    calculateThreads rnd clamp ns metrics =
      [Num (IZR t); Num (IZR (ceilDiv25 t));
       Num (IZR u); Num (IZR (ceilDiv12_5 u))].
Proof.
  intros (f & g & h & sg & gm & Hf & Hf0 & Hg & Hg0 & Hh & Hh0 & Hsg & Hsg0
          & Hgm & Hgm0).
  pose proof (adjusted_rate_bounds h Hh0) as [Hlo _].
  pose proof (ln_gt_1 _ Hlo) as Hrate.
  pose proof (ln_gt_1 (1 + g) ltac:(lra)) as Hnum.
  set (x := ln (1 + g) / (ln (Rmin (1 + 0.003 / h) 1.0035) * gm * (sg / 100))).
  exists (Zfloor (fl rnd (g / f))), (Zfloor x). split; [| split].
  - apply Zfloor_nonneg. apply fl_quotient_nonneg; lra.
  - apply Zfloor_nonneg. left. apply Rdiv_lt_0_compat; [exact Hnum |].
    apply Rmult_lt_0_compat; [apply Rmult_lt_0_compat; assumption | lra].
  - apply calculateThreads_integers.
    + rewrite getHackThreads_eq, Hf, Hg, jdiv_finite by lra. reflexivity.
    + rewrite growthAnalyzeDynamic_eq, Hg, Hh, Hsg, Hgm. cbn [jadd].
      rewrite replenishThreadsFor_finite by lra. reflexivity.
Qed.

End Threads.

(** C7. When the extraction count of the vector is the integer [t], the
    Fortify count offsetting it is [ceil(t / 25)]; when the replenish count
    is the integer [u], the Fortify count offsetting it is [ceil(u / 12.5)].
    Both are integer ceilings, [(t + 24) div 25] and [(2 u + 24) div 25],
    with the boundaries 0, 25, 26 giving 0, 1, 2 and 0, 12, 13 giving
    0, 1, 2. *)
Theorem fortify_thread_ratios
    (rnd : Rounding)
    (clamp : number -> number -> number -> number)
    (ns : NS) (metrics : Metrics) (t u : Z) :
  index (calculateThreads rnd clamp ns metrics) 0 = Some (Num (IZR t)) ->
  index (calculateThreads rnd clamp ns metrics) 2 = Some (Num (IZR u)) ->
  index (calculateThreads rnd clamp ns metrics) 1
    = Some (Num (IZR (Zceil (IZR t / 25))))
  /\ index (calculateThreads rnd clamp ns metrics) 3
    = Some (Num (IZR (Zceil (IZR u / 12.5))))
  /\ Zceil (IZR t / 25) = ceilDiv25 t
  /\ Zceil (IZR u / 12.5) = ceilDiv12_5 u
  /\ (ceilDiv25 0 = 0 /\ ceilDiv25 25 = 1 /\ ceilDiv25 26 = 2)%Z
  /\ (ceilDiv12_5 0 = 0 /\ ceilDiv12_5 12 = 1 /\ ceilDiv12_5 13 = 2)%Z.
Proof.
  intros Ht Hu.
  unfold calculateThreads in Ht, Hu. cbn [index nth_error] in Ht, Hu.
  injection Ht as Ht. injection Hu as Hu.
  rewrite (calculateThreads_integers rnd clamp ns metrics t u Ht Hu).
  cbn [index nth_error]. rewrite Zceil_div25, Zceil_div12_5.
  repeat split.
Qed.

(** The small batch: 30 extraction threads and 1 replenish thread. *)
Lemma smallBatch_threads :
  calculateThreads exactRounding clampMinMax smallNS smallGreed =
    [Num 30; Num 2; Num 1; Num 1].
Proof.
  apply (calculateThreads_integers exactRounding clampMinMax smallNS smallGreed 30 1).
  - rewrite getHackThreads_eq.
    cbn [extractionYieldFraction smallNS gameNS fileExists
         formulas_hacking_hackPercent greed smallGreed].
    rewrite jdiv_finite by lra. cbn [Math_floor jround fl exactRounding].
    rewrite (Zfloor_eq 30 (0.003 / 0.0001)) by lra. reflexivity.
  - rewrite growthAnalyzeDynamic_eq.
    cbn [smallGreed target greed jadd fullTarget smallNS gameNS server
         getServerSecurityLevel getServerGrowth getPlayer mults_hacking_grow].
    rewrite replenishThreadsFor_finite by lra. cbn [Math_floor].
    replace (Rmin (1 + 0.003 / 1) 1.0035) with (1 + 0.003)
      by (rewrite Rmin_left; lra).
    pose proof (ln_gt_1 (1 + 0.003) ltac:(lra)) as Hpos.
    replace (ln (1 + 0.003) / (ln (1 + 0.003) * 1 * (100 / 100))) with 1
      by (field; lra).
    rewrite (Zfloor_eq 1 1) by lra. reflexivity.
Qed.

Lemma fortify_thread_ratios_witness :
  index (calculateThreads exactRounding clampMinMax smallNS smallGreed) 1
    = Some (Num (IZR (Zceil (IZR 30 / 25))))
  /\ index (calculateThreads exactRounding clampMinMax smallNS smallGreed) 3
    = Some (Num (IZR (Zceil (IZR 1 / 12.5))))
  /\ Zceil (IZR 30 / 25) = ceilDiv25 30
  /\ Zceil (IZR 1 / 12.5) = ceilDiv12_5 1
  /\ (ceilDiv25 0 = 0 /\ ceilDiv25 25 = 1 /\ ceilDiv25 26 = 2)%Z
  /\ (ceilDiv12_5 0 = 0 /\ ceilDiv12_5 12 = 1 /\ ceilDiv12_5 13 = 2)%Z.
Proof.
  apply (fortify_thread_ratios exactRounding clampMinMax smallNS smallGreed 30 1);
    rewrite smallBatch_threads; reflexivity.
Defined.

(** The raw thread-count vector does contain zeros on a non-degenerate
    input: with an extraction fraction of 0.01 above a greed of 0.003 the
    extraction count and its Fortify count are 0. *)
Lemma raw_threads_zero :
  nonDegenerate clampMinMax richNS smallGreed
  /\ index (calculateThreads exactRounding clampMinMax richNS smallGreed) 0 = Some (Num 0)
  /\ index (calculateThreads exactRounding clampMinMax richNS smallGreed) 1 = Some (Num 0).
Proof.
  split.
  - exists 0.01, 0.003, 1, 100, 1. repeat split; try reflexivity; lra.
  - unfold calculateThreads. cbn [index nth_error].
    rewrite getHackThreads_eq.
    cbn [extractionYieldFraction richNS gameNS fileExists
         formulas_hacking_hackPercent greed smallGreed].
    rewrite jdiv_finite by lra. cbn [Math_floor jround fl exactRounding].
    rewrite (Zfloor_eq 0 (0.003 / 0.01)) by lra.
    rewrite jdiv_finite by lra. cbn [Math_ceil].
    rewrite (Zceil_eq 0 (0 / 25)) by lra. split; reflexivity.
Qed.

(** C8. On a non-degenerate input the batch of [createBatch] has four
    tasks and each of them has an integer thread count of at least 1: the
    assembly raises a raw count of 0 to 1. *)
Theorem batch_threads_at_least_one
    (rnd : Rounding)
    (clamp : number -> number -> number -> number)
    (getUsableHosts : NS -> list Server)
    (ns : NS) (controller : Controller) :
  nonDegenerate clamp ns (metrics controller) ->
  List.length (tasks (createBatch rnd clamp getUsableHosts ns controller)) = 4%nat
  /\ Forall (fun task => exists k : Z, threads task = Num (IZR k) /\ (1 <= k)%Z)
            (tasks (createBatch rnd clamp getUsableHosts ns controller)).
Proof.
  intros Hvalid.
  destruct (calculateThreads_nonDegenerate rnd clamp ns (metrics controller) Hvalid)
    as (t & u & Ht & Hu & E).
  unfold createBatch, createBatchTasks. cbn [tasks]. rewrite E.
  unfold calculateDelays, batchKinds. cbn [combine map List.length].
  split; [reflexivity |].
  repeat constructor; cbn [threads Math_max]; rewrite Rmax_one_IZR;
    eexists; (split; [reflexivity | lia]).
Qed.

Lemma batch_threads_at_least_one_witness :
  List.length (tasks (createBatch exactRounding clampMinMax noHosts richNS
                        (mkController smallGreed (target smallGreed)))) = 4%nat
  /\ Forall (fun task => exists k : Z, threads task = Num (IZR k) /\ (1 <= k)%Z)
            (tasks (createBatch exactRounding clampMinMax noHosts richNS
                      (mkController smallGreed (target smallGreed)))).
Proof.
  apply (batch_threads_at_least_one exactRounding clampMinMax noHosts richNS
           (mkController smallGreed (target smallGreed))).
  exists 0.01, 0.003, 1, 100, 1. repeat split; try reflexivity; lra.
Defined.

(* ================================================================== *)
(** ** Further properties of the delays                                 *)
(* ================================================================== *)

(** X1. On finite durations and a spacing [s >= 0], none of the four delays
    is negative exactly when [hackTime + s <= weakenTime] and
    [growTime <= weakenTime + s]. *)
Theorem delays_nonnegative_iff
    (ns : NS) (controller : Controller) (h g w s : R) :
  let host := hostname (server (target (metrics controller))) in
  getHackTime ns host = Num h ->
  getGrowTime ns host = Num g ->
  getWeakenTime ns host = Num w ->
  taskDelay (metrics controller) = Num s ->
  0 <= s ->
  Forall (fun d => exists r : R, d = Num r /\ 0 <= r)
         (calculateDelays ns controller)
  <-> h + s <= w /\ g <= w + s.
Proof.
  intros host Hh Hg Hw Hs Hs0.
  rewrite (calculateDelays_finite ns controller h g w s Hh Hg Hw Hs).
  split.
  - intros F.
    inversion F as [| ? ? (r0 & E0 & P0) F1]; subst.
    inversion F1 as [| ? ? _ F2]; subst.
    inversion F2 as [| ? ? (r2 & E2 & P2) _]; subst.
    injection E0 as E0. injection E2 as E2. lra.
  - intros [A B].
    repeat constructor; eexists; (split; [reflexivity | lra]).
Qed.

Lemma delays_nonnegative_iff_witness :
  Forall (fun d => exists r : R, d = Num r /\ 0 <= r)
         (calculateDelays timingNS timingController)
  <-> 5 + 2 <= 20 /\ 10 <= 20 + 2.
Proof.
  apply (delays_nonnegative_iff timingNS timingController 5 10 20 2);
    try reflexivity; lra.
Defined.

(** X2. On finite durations and spacing the four operations land at
    [w - s], [w], [w + s] and [w + 2 s]: the landing times depend on the
    weaken time and the spacing only, and consecutive landings are exactly
    [s] apart, whatever the hack and grow times are. *)
Theorem landing_times_exact
    (ns : NS) (controller : Controller) (h g w s : R) :
  let host := hostname (server (target (metrics controller))) in
  getHackTime ns host = Num h ->
  getGrowTime ns host = Num g ->
  getWeakenTime ns host = Num w ->
  taskDelay (metrics controller) = Num s ->
  landingTimes ns controller =
    [Num (w - s); Num w; Num (w + s); Num (w + 2 * s)].
Proof.
  intros host. apply landingTimes_finite.
Qed.

Lemma landing_times_exact_witness :
  landingTimes timingNS timingController =
    [Num (20 - 2); Num 20; Num (20 + 2); Num (20 + 2 * 2)].
Proof.
  apply (landing_times_exact timingNS timingController 5 10 20 2);
    reflexivity.
Defined.

(* ================================================================== *)
(** ** Further properties of the extraction count                       *)
(* ================================================================== *)

(** X4. For a fixed positive extraction-yield fraction the extraction
    thread count does not decrease when greed grows. *)
Theorem hack_threads_monotone_in_greed
    (rnd : Rounding)
    (clamp : number -> number -> number -> number)
    (ns : NS) (m1 m2 : Metrics) (f g1 g2 : R) :
  extractionYieldFraction clamp ns m1 = Num f ->
  extractionYieldFraction clamp ns m2 = Num f ->
  0 < f ->
  greed m1 = Num g1 ->
  greed m2 = Num g2 ->
  g1 <= g2 ->
  exists t1 t2 : Z,
    getHackThreads rnd clamp ns m1 = Num (IZR t1)
    /\ getHackThreads rnd clamp ns m2 = Num (IZR t2)
    /\ (t1 <= t2)%Z.
Proof.
  intros Hf1 Hf2 Hpos Hg1 Hg2 Hle.
  exists (Zfloor (fl rnd (g1 / f))), (Zfloor (fl rnd (g2 / f))).
  rewrite !getHackThreads_eq, Hf1, Hf2, Hg1, Hg2, !jdiv_finite by lra.
  repeat split. apply Zfloor_le. apply fl_monotone.
  unfold Rdiv. apply Rmult_le_compat_r; [| exact Hle].
  left. apply Rinv_0_lt_compat. exact Hpos.
Qed.

Lemma hack_threads_monotone_in_greed_witness :
  exists t1 t2 : Z,
    getHackThreads exactRounding clampMinMax smallNS smallGreed = Num (IZR t1)
    /\ getHackThreads exactRounding clampMinMax smallNS halfGreed = Num (IZR t2)
    /\ (t1 <= t2)%Z.
Proof.
  apply (hack_threads_monotone_in_greed exactRounding clampMinMax smallNS smallGreed
           halfGreed 0.0001 0.003 0.5); try reflexivity; lra.
Defined.

(** X5. Without the oracle, with a [clamp] that returns its lower bound on
    values at or below it, an operator whose hacking skill is at most the
    required skill minus 1 has an extraction-yield fraction of 0, and for a
    positive greed [getHackThreads] returns [Infinity]. *)
Theorem underlevelled_hack_threads
    (rnd : Rounding)
    (clamp : number -> number -> number -> number)
    (ns : NS) (metrics : Metrics) (d s r m g : R) :
  (forall x : R, x <= 0 -> clamp (Num x) (Num 0) (Num 1) = Num 0) ->
  fileExists ns "Formulas.exe" (Some "home"%string) = false ->
  hackDifficulty (target metrics) = Num d -> d <= 100 ->
  skills_hacking (getPlayer ns) = Num s -> 0 < s ->
  getServerRequiredHackingLevel ns (hostname (server (target metrics)))
    = Num r ->
  s <= r - 1 ->
  mults_hacking_money (getPlayer ns) = Num m -> 0 <= m ->
  greed metrics = Num g -> 0 < g ->
  getHackEffect clamp ns (target metrics) = Num 0
  /\ getHackThreads rnd clamp ns metrics = PosInfinity.
Proof.
  intros Hclamp Hfile Hd Hd0 Hs Hs0 Hr Hr0 Hm Hm0 Hg Hg0.
  assert (E : getHackEffect clamp ns (target metrics) = Num 0).
  { rewrite (getHackEffect_finite clamp ns (target metrics) d s r m)
      by (try assumption; lra).
    apply Hclamp.
    assert (Hskill : (s - (r - 1)) / s <= 0).
    { unfold Rdiv. rewrite <- (Rmult_0_l (/ s)).
      apply Rmult_le_compat_r; [left; apply Rinv_0_lt_compat; exact Hs0 | lra]. }
    assert (Hdiff : 0 <= (100 - d) / 100) by lra.
    assert (Hprod : (100 - d) / 100 * ((s - (r - 1)) / s) <= 0).
    { rewrite <- (Rmult_0_r ((100 - d) / 100)).
      apply Rmult_le_compat_l; assumption. }
    assert (Hall : (100 - d) / 100 * ((s - (r - 1)) / s) * m <= 0).
    { rewrite <- (Rmult_0_l m). apply Rmult_le_compat_r; assumption. }
    lra. }
  split; [exact E |].
  rewrite getHackThreads_eq. unfold extractionYieldFraction.
  rewrite Hfile, E, Hg, jdiv_by_zero, infinityOfSign_pos by exact Hg0.
  reflexivity.
Qed.

Lemma underlevelled_hack_threads_witness :
  getHackEffect clampMinMax underLevelledNS (target hardenedGreed) = Num 0
  /\ getHackThreads exactRounding clampMinMax underLevelledNS hardenedGreed = PosInfinity.
Proof.
  apply (underlevelled_hack_threads exactRounding clampMinMax underLevelledNS hardenedGreed
           10 10 100 1 0.5); try reflexivity; try lra.
  intros x Hx. unfold clampMinMax. cbn [Math_max Math_min].
  rewrite Rmax_right by exact Hx. rewrite Rmin_left by lra. reflexivity.
Defined.

(** X6. A zero extraction-yield fraction is not caught by
    [calculateThreads]: for a positive greed both the extraction count and
    the count of the Fortify that offsets it are [Infinity]. *)
Theorem zero_fraction_propagates
    (rnd : Rounding)
    (clamp : number -> number -> number -> number)
    (ns : NS) (metrics : Metrics) (g : R) :
  extractionYieldFraction clamp ns metrics = Num 0 ->
  greed metrics = Num g ->
  0 < g ->
  index (calculateThreads rnd clamp ns metrics) 0 = Some PosInfinity
  /\ index (calculateThreads rnd clamp ns metrics) 1 = Some PosInfinity.
Proof.
  intros Hf Hg Hpos. unfold calculateThreads. cbn [index nth_error].
  rewrite getHackThreads_eq, Hf, Hg, jdiv_by_zero, infinityOfSign_pos
    by exact Hpos.
  cbn [jround Math_floor jdiv].
  destruct (Rlt_dec 25 0) as [L | _]; [lra |].
  split; reflexivity.
Qed.

Lemma zero_fraction_propagates_witness :
  index (calculateThreads exactRounding clampMinMax underLevelledNS hardenedGreed) 0
    = Some PosInfinity
  /\ index (calculateThreads exactRounding clampMinMax underLevelledNS hardenedGreed) 1
    = Some PosInfinity.
Proof.
  apply (zero_fraction_propagates exactRounding clampMinMax underLevelledNS hardenedGreed
           0.5).
  - exact underLevelled_selected_fraction.
  - reflexivity.
  - lra.
Defined.

(** X7. The Fortify counts cover what they offset and are the least that
    do: with [t] extraction threads and [a] Fortify threads,
    [25 (a - 1) < t <= 25 a]; with [u] replenish threads and [b] Fortify
    threads, [12.5 (b - 1) < u <= 12.5 b]. *)
Theorem fortify_counts_cover
    (rnd : Rounding)
    (clamp : number -> number -> number -> number)
    (ns : NS) (metrics : Metrics) (t u : Z) :
  index (calculateThreads rnd clamp ns metrics) 0 = Some (Num (IZR t)) ->
  index (calculateThreads rnd clamp ns metrics) 2 = Some (Num (IZR u)) ->
  exists a b : Z,
    index (calculateThreads rnd clamp ns metrics) 1 = Some (Num (IZR a))
    /\ index (calculateThreads rnd clamp ns metrics) 3 = Some (Num (IZR b))
    /\ (25 * (a - 1) < t <= 25 * a)%Z
    /\ 12.5 * (IZR b - 1) < IZR u <= 12.5 * IZR b.
Proof.
  intros Ht Hu.
  unfold calculateThreads in Ht, Hu. cbn [index nth_error] in Ht, Hu.
  injection Ht as Ht. injection Hu as Hu.
  rewrite (calculateThreads_integers rnd clamp ns metrics t u Ht Hu).
  exists (ceilDiv25 t), (ceilDiv12_5 u). cbn [index nth_error].
  repeat split.
  - unfold ceilDiv25.
    pose proof (Z.div_mod (t + 24) 25 ltac:(lia)).
    pose proof (Z.mod_pos_bound (t + 24) 25 ltac:(lia)). lia.
  - unfold ceilDiv25.
    pose proof (Z.div_mod (t + 24) 25 ltac:(lia)).
    pose proof (Z.mod_pos_bound (t + 24) 25 ltac:(lia)). lia.
  - rewrite <- Zceil_div12_5.
    pose proof (Zceil_bound (IZR u / 12.5)) as [Lo _]. lra.
  - rewrite <- Zceil_div12_5.
    pose proof (Zceil_bound (IZR u / 12.5)) as [_ Hi]. lra.
Qed.

Lemma fortify_counts_cover_witness :
  exists a b : Z,
    index (calculateThreads exactRounding clampMinMax smallNS smallGreed) 1
      = Some (Num (IZR a))
    /\ index (calculateThreads exactRounding clampMinMax smallNS smallGreed) 3
      = Some (Num (IZR b))
    /\ (25 * (a - 1) < 30 <= 25 * a)%Z
    /\ 12.5 * (IZR b - 1) < IZR 1 <= 12.5 * IZR b.
Proof.
  apply (fortify_counts_cover exactRounding clampMinMax smallNS smallGreed 30 1);
    rewrite smallBatch_threads; reflexivity.
Defined.

(* ================================================================== *)
(** ** Further properties of the replenish counts                       *)
(* ================================================================== *)


Lemma growthOf_exp (h gm sg t : R) :
  growthOf h gm sg t =
  exp (t * (ln (Rmin (1 + 0.003 / h) 1.0035) * gm * (sg / 100))).
Proof. unfold growthOf, Rpower. f_equal. ring. Qed.

Lemma growth_denominator_pos (h gm sg : R) :
  0 < h -> 0 < gm -> 0 < sg ->
  0 < ln (Rmin (1 + 0.003 / h) 1.0035) * gm * (sg / 100).
Proof.
  intros Hh Hgm Hsg.
  pose proof (adjusted_rate_bounds h Hh) as [Hlo _].
  pose proof (ln_gt_1 _ Hlo) as Hln.
  apply Rmult_lt_0_compat; [apply Rmult_lt_0_compat; assumption | lra].
Qed.

(** The rate is the cap up to a security level of 6/7 and below the cap
    above it. *)
Lemma adjusted_rate_capped (h : R) :
  0 < h -> h <= 6 / 7 -> Rmin (1 + 0.003 / h) 1.0035 = 1.0035.
Proof.
  intros Hh Hle. apply Rmin_right.
  assert (E : 0.0035 = 0.0035 * h / h) by (field; lra).
  assert (0.0035 <= 0.003 / h); [| lra].
  rewrite E. unfold Rdiv. apply Rmult_le_compat_r; [| lra].
  left. apply Rinv_0_lt_compat. exact Hh.
Qed.

Lemma adjusted_rate_uncapped (h : R) :
  6 / 7 <= h -> Rmin (1 + 0.003 / h) 1.0035 = 1 + 0.003 / h.
Proof.
  intros Hle. apply Rmin_left.
  assert (Hh : 0 < h) by lra.
  assert (E : 0.0035 = 0.0035 * h / h) by (field; lra).
  assert (0.003 / h <= 0.0035); [| lra].
  rewrite E. unfold Rdiv. apply Rmult_le_compat_r; [| lra].
  left. apply Rinv_0_lt_compat. exact Hh.
Qed.

(** X8. [growthAnalyzeDynamic] inverts the growth formula: for a positive
    multiplier [m] the thread count [t] it returns satisfies
    [rate ^ (t * growMultiplier * growth / 100) = m], with
    [rate = min(1 + 0.003 / security, 1.0035)]. *)
Theorem growth_round_trip
    (ns : NS) (target : Target) (h sg gm m : R) :
  let host := hostname (server target) in
  getServerSecurityLevel ns host = Num h ->
  getServerGrowth ns host = Num sg ->
  mults_hacking_grow (getPlayer ns) = Num gm ->
  0 < h -> sg <> 0 -> gm <> 0 -> 0 < m ->
  exists t : R,
    growthAnalyzeDynamic ns target (Num m) = Num t
    /\ growthOf h gm sg t = m.
Proof.
  intros host Hh Hsg Hgm Hh0 Hsg0 Hgm0 Hm. subst host.
  rewrite growthAnalyzeDynamic_eq, Hh, Hsg, Hgm.
  rewrite replenishThreadsFor_finite by assumption.
  eexists; split; [reflexivity |].
  pose proof (adjusted_rate_bounds h Hh0) as [Hlo _].
  pose proof (ln_gt_1 _ Hlo) as Hln.
  rewrite growthOf_exp.
  set (D := ln (Rmin (1 + 0.003 / h) 1.0035) * gm * (sg / 100)).
  assert (HD : D <> 0).
  { unfold D. apply Rmult_integral_contrapositive_currified.
    - apply Rmult_integral_contrapositive_currified; [lra | exact Hgm0].
    - lra. }
  replace (ln m / D * D) with (ln m) by (field; exact HD).
  apply exp_ln. exact Hm.
Qed.

Lemma growth_round_trip_witness :
  exists t : R,
    growthAnalyzeDynamic analyticNS (fullTarget (Num 1)) (Num 1.5) = Num t
    /\ growthOf 1 1 100 t = 1.5.
Proof.
  apply (growth_round_trip analyticNS (fullTarget (Num 1)) 1 100 1 1.5);
    try reflexivity; lra.
Defined.





(** X11. Without the oracle, a node whose money is at its maximum (of at
    least 1) needs no grow thread: [getGrowThreads] returns 0. *)
Theorem grow_threads_zero_at_max
    (ns : NS) (target : Target) (h sg gm M : R) :
  let host := hostname (server target) in
  fileExists ns "Formulas.exe" None = false ->
  getServerSecurityLevel ns host = Num h ->
  getServerGrowth ns host = Num sg ->
  mults_hacking_grow (getPlayer ns) = Num gm ->
  moneyMax target = Num M ->
  moneyAvailable target = Num M ->
  0 < h -> sg <> 0 -> gm <> 0 -> 1 <= M ->
  getGrowThreads ns target = Num 0.
Proof.
  intros host Hfile Hh Hsg Hgm HM Ha Hh0 Hsg0 Hgm0 HM1. subst host.
  unfold getGrowThreads. rewrite Hfile, growthAnalyzeDynamic_eq.
  rewrite Hh, Hsg, Hgm, HM, Ha. cbn [Math_max].
  rewrite Rmax_left by exact HM1.
  rewrite jdiv_finite by lra.
  replace (M / M) with 1 by (field; lra).
  rewrite replenishThreadsFor_finite by lra.
  rewrite ln_1. cbn [Math_ceil].
  replace (0 / _) with 0 by (unfold Rdiv; ring).
  rewrite (Zceil_eq 0 0) by lra. reflexivity.
Qed.

Lemma grow_threads_zero_at_max_witness :
  getGrowThreads analyticNS (fullTarget (Num 1)) = Num 0.
Proof.
  apply (grow_threads_zero_at_max analyticNS (fullTarget (Num 1))
           1 100 1 1000000); try reflexivity; lra.
Defined.

(** X12. Without the oracle, a node whose maximum money is 0 makes
    [getGrowThreads] return [-Infinity]: the multiplier is 0 and its
    logarithm is not finite. *)
Theorem grow_threads_without_money
    (ns : NS) (target : Target) (h sg gm a : R) :
  let host := hostname (server target) in
  fileExists ns "Formulas.exe" None = false ->
  getServerSecurityLevel ns host = Num h ->
  getServerGrowth ns host = Num sg ->
  mults_hacking_grow (getPlayer ns) = Num gm ->
  moneyMax target = Num 0 ->
  moneyAvailable target = Num a ->
  0 < h -> 0 < sg -> 0 < gm ->
  getGrowThreads ns target = NegInfinity.
Proof.
  intros host Hfile Hh Hsg Hgm HM Ha Hh0 Hsg0 Hgm0. subst host.
  unfold getGrowThreads. rewrite Hfile, growthAnalyzeDynamic_eq.
  rewrite Hh, Hsg, Hgm, HM, Ha. cbn [Math_max].
  pose proof (Rmax_r a 1) as Hmax.
  rewrite jdiv_finite by lra.
  replace (0 / Rmax a 1) with 0 by (unfold Rdiv; ring).
  unfold replenishThreadsFor.
  pose proof (adjusted_rate_bounds h Hh0) as [Hlo _].
  pose proof (growth_denominator_pos h gm sg Hh0 Hgm0 Hsg0) as HD.
  rewrite (jdiv_finite 0.003 h) by lra.
  cbn [jadd Math_min]. rewrite (Math_log_pos (Rmin _ _)) by lra.
  rewrite (jdiv_finite sg 100) by lra. cbn [jmul].
  unfold Math_log at 1.
  destruct (total_order_T 0 0) as [[L | _] | G]; [lra | | lra].
  cbn [jdiv].
  destruct (Rlt_dec _ 0) as [L | _]; [lra | reflexivity].
Qed.

Lemma grow_threads_without_money_witness :
  getGrowThreads analyticNS emptyTarget = NegInfinity.
Proof.
  apply (grow_threads_without_money analyticNS emptyTarget 1 100 1 0);
    try reflexivity; lra.
Defined.

(** X13. Without the oracle, money of at most 1 (a drained node) counts as
    1: the multiplier is the maximum money itself, no division by zero
    occurs and [getGrowThreads] is
    [ceil(growthAnalyzeDynamic(target, moneyMax))]. *)
Theorem grow_threads_drained
    (ns : NS) (target : Target) (M a : R) :
  fileExists ns "Formulas.exe" None = false ->
  moneyMax target = Num M ->
  moneyAvailable target = Num a ->
  a <= 1 ->
  getGrowThreads ns target =
    Math_ceil (growthAnalyzeDynamic ns target (moneyMax target)).
Proof.
  intros Hfile HM Ha Hle.
  unfold getGrowThreads. rewrite Hfile, HM, Ha. cbn [Math_max].
  rewrite Rmax_right by exact Hle.
  rewrite jdiv_finite by lra.
  replace (M / 1) with M by field. reflexivity.
Qed.

Lemma grow_threads_drained_witness :
  getGrowThreads analyticNS drainedTarget =
    Math_ceil (growthAnalyzeDynamic analyticNS drainedTarget
                                    (moneyMax drainedTarget)).
Proof.
  apply (grow_threads_drained analyticNS drainedTarget 1000000 0);
    try reflexivity; lra.
Defined.

(** X14. Up to a security level of 6/7, 0 included, the growth rate is the
    cap 1.0035: [growthAnalyzeDynamic] returns
    [ln(m) / (ln(1.0035) * growMultiplier * growth / 100)], also at
    security 0 where the division by the security level gives
    [Infinity]. *)
Theorem growth_rate_capped
    (ns : NS) (target : Target) (h sg gm m : R) :
  let host := hostname (server target) in
  getServerSecurityLevel ns host = Num h ->
  getServerGrowth ns host = Num sg ->
  mults_hacking_grow (getPlayer ns) = Num gm ->
  0 <= h -> h <= 6 / 7 -> sg <> 0 -> gm <> 0 -> 0 < m ->
  growthAnalyzeDynamic ns target (Num m) =
    Num (ln m / (ln 1.0035 * gm * (sg / 100))).
Proof.
  intros host Hh Hsg Hgm Hh0 Hh1 Hsg0 Hgm0 Hm. subst host.
  rewrite growthAnalyzeDynamic_eq, Hh, Hsg, Hgm.
  destruct Hh0 as [Hpos | <-].
  - rewrite replenishThreadsFor_finite by assumption.
    rewrite adjusted_rate_capped by assumption. reflexivity.
  - unfold replenishThreadsFor.
    rewrite jdiv_by_zero, infinityOfSign_pos by lra.
    cbn [jadd Math_min].
    pose proof (ln_gt_1 1.0035 ltac:(lra)) as Hln.
    rewrite (Math_log_pos m) by exact Hm.
    rewrite Math_log_pos by lra.
    rewrite (jdiv_finite sg 100) by lra. cbn [jmul].
    rewrite jdiv_finite; [reflexivity |].
    apply Rmult_integral_contrapositive_currified.
    + apply Rmult_integral_contrapositive_currified; [lra | exact Hgm0].
    + lra.
Qed.

Lemma growth_rate_capped_witness :
  growthAnalyzeDynamic unsecuredNS (fullTarget (Num 1)) (Num 1.5) =
    Num (ln 1.5 / (ln 1.0035 * 1 * (100 / 100))).
Proof.
  apply (growth_rate_capped unsecuredNS (fullTarget (Num 1)) 0 100 1 1.5);
    try reflexivity; lra.
Defined.

(** X15. From a security level of 6/7 on, so at every security level of at
    least 1, the cap plays no part: [growthAnalyzeDynamic] returns
    [ln(m) / (ln(1 + 0.003 / security) * growMultiplier * growth / 100)]. *)
Theorem growth_rate_uncapped
    (ns : NS) (target : Target) (h sg gm m : R) :
  let host := hostname (server target) in
  getServerSecurityLevel ns host = Num h ->
  getServerGrowth ns host = Num sg ->
  mults_hacking_grow (getPlayer ns) = Num gm ->
  6 / 7 <= h -> sg <> 0 -> gm <> 0 -> 0 < m ->
  growthAnalyzeDynamic ns target (Num m) =
    Num (ln m / (ln (1 + 0.003 / h) * gm * (sg / 100))).
Proof.
  intros host Hh Hsg Hgm Hh0 Hsg0 Hgm0 Hm. subst host.
  rewrite growthAnalyzeDynamic_eq, Hh, Hsg, Hgm.
  rewrite replenishThreadsFor_finite by (try assumption; lra).
  rewrite adjusted_rate_uncapped by assumption. reflexivity.
Qed.

Lemma growth_rate_uncapped_witness :
  growthAnalyzeDynamic analyticNS (fullTarget (Num 1)) (Num 1.5) =
    Num (ln 1.5 / (ln (1 + 0.003 / 1) * 1 * (100 / 100))).
Proof.
  apply (growth_rate_uncapped analyticNS (fullTarget (Num 1)) 1 100 1 1.5);
    try reflexivity; lra.
Defined.

(** X16. The higher the security level, the more threads a growth needs:
    for a multiplier [m >= 1] and security levels [0 < h1 <= h2], with the
    same growth and multiplier, the estimate at [h1] is at most the one at
    [h2]. *)
Theorem growth_threads_monotone_in_security
    (ns1 ns2 : NS) (target : Target) (h1 h2 sg gm m : R) :
  let host := hostname (server target) in
  getServerSecurityLevel ns1 host = Num h1 ->
  getServerSecurityLevel ns2 host = Num h2 ->
  getServerGrowth ns1 host = Num sg ->
  getServerGrowth ns2 host = Num sg ->
  mults_hacking_grow (getPlayer ns1) = Num gm ->
  mults_hacking_grow (getPlayer ns2) = Num gm ->
  0 < h1 -> h1 <= h2 -> 0 < sg -> 0 < gm -> 1 <= m ->
  exists t1 t2 : R,
    growthAnalyzeDynamic ns1 target (Num m) = Num t1
    /\ growthAnalyzeDynamic ns2 target (Num m) = Num t2
    /\ t1 <= t2.
Proof.
  intros host Hh1 Hh2 Hsg1 Hsg2 Hgm1 Hgm2 Hpos Hle Hsg0 Hgm0 Hm. subst host.
  rewrite !growthAnalyzeDynamic_eq, Hh1, Hh2, Hsg1, Hsg2, Hgm1, Hgm2.
  rewrite !replenishThreadsFor_finite by lra.
  do 2 eexists; split; [reflexivity | split; [reflexivity |]].
  assert (Hpos2 : 0 < h2) by lra.
  pose proof (growth_denominator_pos h1 gm sg Hpos Hgm0 Hsg0) as HD1.
  pose proof (growth_denominator_pos h2 gm sg Hpos2 Hgm0 Hsg0) as HD2.
  pose proof (adjusted_rate_bounds h1 Hpos) as [Hlo1 _].
  pose proof (adjusted_rate_bounds h2 Hpos2) as [Hlo2 _].
  assert (Hinc : 0.003 / h2 <= 0.003 / h1).
  { unfold Rdiv. apply Rmult_le_compat_l; [lra |].
    apply Rinv_le_contravar; assumption. }
  assert (Hrate : Rmin (1 + 0.003 / h2) 1.0035 <= Rmin (1 + 0.003 / h1) 1.0035).
  { apply Rmin_glb; [| apply Rmin_r].
    eapply Rle_trans; [apply Rmin_l | lra]. }
  assert (Hln : ln (Rmin (1 + 0.003 / h2) 1.0035)
                <= ln (Rmin (1 + 0.003 / h1) 1.0035)).
  { destruct Hrate as [L | E]; [| rewrite E; lra].
    left. apply ln_increasing; lra. }
  set (D1 := ln (Rmin (1 + 0.003 / h1) 1.0035) * gm * (sg / 100)) in *.
  set (D2 := ln (Rmin (1 + 0.003 / h2) 1.0035) * gm * (sg / 100)) in *.
  assert (HD : D2 <= D1).
  { unfold D1, D2. apply Rmult_le_compat_r; [lra |].
    apply Rmult_le_compat_r; lra. }
  assert (Hnum : 0 <= ln m).
  { destruct Hm as [L | <-]; [left; now apply ln_gt_1 | rewrite ln_1; lra]. }
  unfold Rdiv. apply Rmult_le_compat_l; [exact Hnum |].
  apply Rinv_le_contravar; assumption.
Qed.

Lemma growth_threads_monotone_in_security_witness :
  exists t1 t2 : R,
    growthAnalyzeDynamic analyticNS (fullTarget (Num 1)) (Num 1.5) = Num t1
    /\ growthAnalyzeDynamic underLevelledNS (fullTarget (Num 1)) (Num 1.5)
       = Num t2
    /\ t1 <= t2.
Proof.
  apply (growth_threads_monotone_in_security analyticNS underLevelledNS
           (fullTarget (Num 1)) 1 10 100 1 1.5); try reflexivity; lra.
Defined.

(* ================================================================== *)
(** ** Restoring the security level: [getMinSecThreads]                 *)
(* ================================================================== *)

Lemma getMinSecThreads_finite (rnd : Rounding) (ns : NSWeaken) (target : Target) (c mn e : R) :
  hackDifficulty target = Num c ->
  getServerMinSecurityLevel ns (hostname (server target)) = Num mn ->
  weakenAnalyze ns (Num 1) = Num e ->
  e <> 0 ->
  getMinSecThreads rnd ns target =
    Num (IZR (Zceil (fl rnd (Rabs (c - mn) / e)))).
Proof.
  intros Hc Hmn He He0. unfold getMinSecThreads.
  rewrite Hc, Hmn, He, jsub_finite. cbn [Math_abs].
  rewrite jdiv_finite by exact He0. reflexivity.
Qed.

(** X18. With a positive effect of one weaken thread, [getMinSecThreads]
    returns 0 exactly when the security level is at its minimum; a level
    below the minimum asks for threads like a level above it. *)
Theorem min_sec_threads_zero_iff
    (rnd : Rounding) (ns : NSWeaken) (target : Target) (c mn e : R) :
  hackDifficulty target = Num c ->
  getServerMinSecurityLevel ns (hostname (server target)) = Num mn ->
  weakenAnalyze ns (Num 1) = Num e ->
  0 < e ->
  getMinSecThreads rnd ns target = Num 0 <-> c = mn.
Proof.
  intros Hc Hmn He He0.
  rewrite (getMinSecThreads_finite rnd ns target c mn e Hc Hmn He) by lra.
  pose proof (Zceil_bound (fl rnd (Rabs (c - mn) / e))) as [Lo Hi].
  split.
  - intros H. injection H as H. rewrite H in Hi.
    destruct (Req_dec_T c mn) as [E | N]; [exact E | exfalso].
    assert (Hd : 0 < Rabs (c - mn)) by (apply Rabs_pos_lt; lra).
    assert (Hq : 0 < Rabs (c - mn) / e)
      by (apply Rdiv_lt_0_compat; assumption).
    pose proof (fl_positive rnd _ Hq). lra.
  - intros ->. replace (mn - mn) with 0 by ring.
    rewrite Rabs_R0. replace (0 / e) with 0 by (unfold Rdiv; ring).
    rewrite fl_zero, (Zceil_eq 0 0) by lra. reflexivity.
Qed.

Lemma min_sec_threads_zero_iff_witness :
  getMinSecThreads exactRounding weakenNS (fullTarget (Num 1)) = Num 0 <-> 1 = 1.
Proof.
  apply (min_sec_threads_zero_iff exactRounding weakenNS (fullTarget (Num 1)) 1 1 0.05);
    try reflexivity; lra.
Defined.

(** X19. When one weaken thread has no effect ([weakenAnalyze(1)] is 0) and
    the security level is off its minimum, [getMinSecThreads] returns
    [Infinity]. *)
Theorem min_sec_threads_no_effect
    (rnd : Rounding) (ns : NSWeaken) (target : Target) (c mn : R) :
  hackDifficulty target = Num c ->
  getServerMinSecurityLevel ns (hostname (server target)) = Num mn ->
  weakenAnalyze ns (Num 1) = Num 0 ->
  c <> mn ->
  getMinSecThreads rnd ns target = PosInfinity.
Proof.
  intros Hc Hmn He Hne. unfold getMinSecThreads.
  rewrite Hc, Hmn, He, jsub_finite. cbn [Math_abs].
  rewrite jdiv_by_zero, infinityOfSign_pos; [reflexivity |].
  apply Rabs_pos_lt. lra.
Qed.

Lemma min_sec_threads_no_effect_witness :
  getMinSecThreads exactRounding (mkNSWeaken (fun _ => Num 1) (fun _ => Num 0))
                   (fullTarget (Num 10)) = PosInfinity.
Proof.
  apply (min_sec_threads_no_effect exactRounding
           (mkNSWeaken (fun _ => Num 1) (fun _ => Num 0))
           (fullTarget (Num 10)) 10 1); try reflexivity; lra.
Defined.

(* ================================================================== *)
(** ** The thread-count vector on sound inputs                          *)
(* ================================================================== *)

(** X20. On a non-degenerate input (positive extraction-yield fraction,
    greed, security level, growth and growth multiplier) the vector of
    [calculateThreads] holds four non-negative integers: no entry is
    negative, infinite or [NaN]. *)
Theorem thread_counts_nonnegative_integers
    (rnd : Rounding)
    (clamp : number -> number -> number -> number)
    (ns : NS) (metrics : Metrics) :
  nonDegenerate clamp ns metrics ->
  List.length (calculateThreads rnd clamp ns metrics) = 4%nat
  /\ Forall (fun n => exists k : Z, n = Num (IZR k) /\ (0 <= k)%Z)
            (calculateThreads rnd clamp ns metrics).
Proof.
  intros Hvalid.
  destruct (calculateThreads_nonDegenerate rnd clamp ns metrics Hvalid)
    as (t & u & Ht & Hu & E).
  rewrite E. split; [reflexivity |].
  assert (Ha : (0 <= ceilDiv25 t)%Z).
  { unfold ceilDiv25. apply Z.div_pos; lia. }
  assert (Hb : (0 <= ceilDiv12_5 u)%Z).
  { unfold ceilDiv12_5. apply Z.div_pos; lia. }
  repeat constructor; eexists; (split; [reflexivity | assumption]).
Qed.

Lemma thread_counts_nonnegative_integers_witness :
  List.length (calculateThreads exactRounding clampMinMax richNS smallGreed) = 4%nat
  /\ Forall (fun n => exists k : Z, n = Num (IZR k) /\ (0 <= k)%Z)
            (calculateThreads exactRounding clampMinMax richNS smallGreed).
Proof.
  apply (thread_counts_nonnegative_integers exactRounding clampMinMax richNS smallGreed).
  exists 0.01, 0.003, 1, 100, 1. repeat split; try reflexivity; lra.
Defined.
